(** * Cloud Compute SDK client: request construction, parsing and errors

    A shallow embedding of [src/lib/sdkClient.ts].  The host platform
    (strings, numbers, [URLSearchParams], [JSON.stringify], [fetch],
    [Response]) is modelled in [Module JS]; the class [CloudComputeSDK]
    itself is translated method by method in [Module SDK]. *)

From Stdlib Require Import ZArith NArith Ascii String List Bool Lia DecimalString.
From stdpp Require Import base option list gmap strings.

Local Open Scope string_scope.

(** ** The host platform *)

Module JS.

(** *** Strings

    A JavaScript string is modelled by the bytes of its UTF-8 encoding
    (the form every string takes before it reaches a URL or a request
    body). *)

Fixpoint join (sep : string) (parts : list string) : string :=
  match parts with
  | [] => ""
  | [p] => p
  | p :: rest => p +:+ sep +:+ join sep rest
  end.

(** [ToBoolean] on a string: only the empty string is falsy. *)
Definition ToBoolean_string (s : string) : bool :=
  match s with
  | EmptyString => false
  | String _ _ => true
  end.

Definition startsWith (c : ascii) (s : string) : bool :=
  match s with
  | EmptyString => false
  | String a _ => Ascii.eqb a c
  end.

Fixpoint endsWith (c : ascii) (s : string) : bool :=
  match s with
  | EmptyString => false
  | String a EmptyString => Ascii.eqb a c
  | String _ rest => endsWith c rest
  end.

(** [s.replace(/\/$/, '')]: without the [m] flag [$] only matches at the
    end of the input, so the single match (if any) is the last character
    when it is a slash. *)
Fixpoint replace_trailing_slash (s : string) : string :=
  match s with
  | EmptyString => EmptyString
  | String a EmptyString => if Ascii.eqb a "/" then EmptyString else s
  | String a rest => String a (replace_trailing_slash rest)
  end.

(** *** Numbers

    A finite non-zero Number is kept as the triple that
    [Number::toString] works from: [Finite neg s n] is the value
    [(-1)^neg * s * 10^(n-k)] where [k] is the count of decimal digits of
    [s] (and [s] carries no trailing zero, so that [k] is least). *)
Inductive number : Type :=
| NaN
| Infinity (negative : bool)
| Zero (negative : bool)
| Finite (negative : bool) (s : positive) (n : Z).

(** [ToBoolean] on a Number: [+0], [-0] and [NaN] are falsy. *)
Definition ToBoolean_number (x : number) : bool :=
  match x with
  | NaN => false
  | Zero _ => false
  | Infinity _ => true
  | Finite _ _ _ => true
  end.

Definition isFinite (x : number) : bool :=
  match x with
  | NaN => false
  | Infinity _ => false
  | Zero _ => true
  | Finite _ _ _ => true
  end.

Definition digits (p : positive) : string :=
  NilEmpty.string_of_uint (Pos.to_uint p).

Definition N_toString (n : N) : string :=
  NilZero.string_of_uint (N.to_uint n).

Fixpoint zeros (n : nat) : string :=
  match n with
  | O => ""
  | S m => String "0" (zeros m)
  end.

(** [Number::toString(x, 10)]. *)
Definition Number_toString (x : number) : string :=
  match x with
  | NaN => "NaN"
  | Zero _ => "0"
  | Infinity neg => (if neg then "-" else "") +:+ "Infinity"
  | Finite neg s n =>
      let ds := digits s in
      let k := Z.of_nat (String.length ds) in
      (if neg then "-" else "") +:+
      (if (k <=? n)%Z && (n <=? 21)%Z then
         ds +:+ zeros (Z.to_nat (n - k))
       else if (0 <? n)%Z && (n <=? 21)%Z then
         substring 0 (Z.to_nat n) ds +:+ "." +:+
         substring (Z.to_nat n) (Z.to_nat (k - n)) ds
       else if (-6 <? n)%Z && (n <=? 0)%Z then
         "0." +:+ zeros (Z.to_nat (- n)) +:+ ds
       else
         let e := (n - 1)%Z in
         let es := (if (e <? 0)%Z then "-" else "+") +:+ N_toString (Z.abs_N e) in
         match ds with
         | EmptyString => "e" +:+ es
         | String d EmptyString => String d "e" +:+ es
         | String d rest => String d ("." +:+ rest) +:+ "e" +:+ es
         end)
  end.

(** Integer literals as Numbers (exact for the integers a script writes
    out, those below 2^53). *)
Definition strip_zeros_fuel := 400%nat.

Fixpoint strip_zeros (fuel : nat) (p : positive) : positive :=
  match fuel with
  | O => p
  | S f =>
      match (Z.pos p mod 10)%Z, (Z.pos p / 10)%Z with
      | 0%Z, Z.pos q => strip_zeros f q
      | _, _ => p
      end
  end.

Definition number_of_Z (z : Z) : number :=
  match z with
  | 0%Z => Zero false
  | Z.pos p =>
      Finite false (strip_zeros strip_zeros_fuel p)
             (Z.of_nat (String.length (digits p)))
  | Z.neg p =>
      Finite true (strip_zeros strip_zeros_fuel p)
             (Z.of_nat (String.length (digits p)))
  end.

(** *** Values *)

#[warnings="-register-all"]
Inductive value : Type :=
| Undefined
| Null
| Bool (b : bool)
| Num (x : number)
| Str (s : string)
| Arr (elements : list value)
| Obj (properties : list (string * value)).

(** Own-property lookup on the property list of an object. *)
Fixpoint get_property (key : string) (props : list (string * value)) : option value :=
  match props with
  | [] => None
  | (k, v) :: rest => if String.eqb k key then Some v else get_property key rest
  end.

(** [typeof v === 'object'] holds of objects, arrays and [null]. *)
Definition typeof_object (v : value) : bool :=
  match v with
  | Null | Arr _ | Obj _ => true
  | _ => false
  end.

Definition is_null (v : value) : bool :=
  match v with
  | Null => true
  | _ => false
  end.

(** ['key' in v] for a value that is an object: arrays carry index keys
    and [length] only. *)
Definition has_property (key : string) (v : value) : bool :=
  match v with
  | Obj props => bool_decide (is_Some (get_property key props))
  | _ => false
  end.

(** [v.key], [undefined] when the property is missing. *)
Definition get (key : string) (v : value) : value :=
  match v with
  | Obj props => default Undefined (get_property key props)
  | _ => Undefined
  end.

Definition typeof_string (v : value) : bool :=
  match v with
  | Str _ => true
  | _ => false
  end.

(** *** Hexadecimal digits and percent-encoding *)

Definition hex_digit (upper : bool) (d : N) : ascii :=
  if (d <? 10)%N then ascii_of_N (48 + d)
  else ascii_of_N ((if upper then 55 else 87) + d).

Definition hex_byte (upper : bool) (c : ascii) : string :=
  let n := N_of_ascii c in
  String (hex_digit upper (n / 16)) (String (hex_digit upper (n mod 16)) "").

Definition is_alphanumeric (c : ascii) : bool :=
  let n := N_of_ascii c in
  ((48 <=? n) && (n <=? 57) || (65 <=? n) && (n <=? 90) || (97 <=? n) && (n <=? 122))%N.

(** The [application/x-www-form-urlencoded] byte serializer: a space
    becomes [+]; ASCII letters and digits and [*], [-], [.], [_] stay;
    every other byte is percent-encoded with upper-case digits. *)
Definition urlencoded_byte (c : ascii) : string :=
  let n := N_of_ascii c in
  if (n =? 32)%N then "+"
  else if is_alphanumeric c || (n =? 42)%N || (n =? 45)%N || (n =? 46)%N || (n =? 95)%N
       then String c ""
       else String "%" (hex_byte true c).

Fixpoint urlencoded (s : string) : string :=
  match s with
  | EmptyString => ""
  | String c rest => urlencoded_byte c +:+ urlencoded rest
  end.

(** *** URLSearchParams *)

Definition URLSearchParams : Type := list (string * string).

Definition URLSearchParams_new : URLSearchParams := [].

Definition remove_name (name : string) (l : URLSearchParams) : URLSearchParams :=
  List.filter (fun p => negb (String.eqb (fst p) name)) l.

(** [searchParams.set(name, value)]: the first tuple called [name] takes
    the value and the others go; without one the tuple is appended. *)
Fixpoint URLSearchParams_set (name value : string) (l : URLSearchParams) : URLSearchParams :=
  match l with
  | [] => [(name, value)]
  | (k, v) :: rest =>
      if String.eqb k name then (name, value) :: remove_name name rest
      else (k, v) :: URLSearchParams_set name value rest
  end.

(** [searchParams.get(name)]: the value of the first tuple called [name]. *)
Fixpoint URLSearchParams_get (name : string) (l : URLSearchParams) : option string :=
  match l with
  | [] => None
  | (k, v) :: rest => if String.eqb k name then Some v else URLSearchParams_get name rest
  end.

Definition serialize_tuple (p : string * string) : string :=
  urlencoded (fst p) +:+ "=" +:+ urlencoded (snd p).

Definition URLSearchParams_toString (l : URLSearchParams) : string :=
  join "&" (List.map serialize_tuple l).

(** *** JSON.stringify *)

Definition QuoteJSONChar (c : ascii) : string :=
  let n := N_of_ascii c in
  if (n =? 8)%N then "\b"
  else if (n =? 9)%N then "\t"
  else if (n =? 10)%N then "\n"
  else if (n =? 12)%N then "\f"
  else if (n =? 13)%N then "\r"
  else if (n =? 34)%N then String "\" (String c "")
  else if (n =? 92)%N then "\\"
  else if (n <? 32)%N then "\u00" +:+ hex_byte false c
  else String c "".

Fixpoint QuoteJSONBody (s : string) : string :=
  match s with
  | EmptyString => ""
  | String c rest => QuoteJSONChar c +:+ QuoteJSONBody rest
  end.

Definition dquote : string := String (ascii_of_N 34) "".

Definition QuoteJSONString (s : string) : string :=
  dquote +:+ QuoteJSONBody s +:+ dquote.

Definition member (key : string) (text : string) : string :=
  QuoteJSONString key +:+ ":" +:+ text.

(** [SerializeJSONProperty] without a replacer and without indentation:
    [None] stands for the [undefined] result. *)
Fixpoint SerializeJSONProperty (v : value) : option string :=
  match v with
  | Undefined => None
  | Null => Some "null"
  | Bool b => Some (if b then "true" else "false")
  | Num x => Some (if isFinite x then Number_toString x else "null")
  | Str s => Some (QuoteJSONString s)
  | Arr elements =>
      Some ("[" +:+
            join "," (List.map (fun e => default "null" (SerializeJSONProperty e)) elements)
            +:+ "]")
  | Obj properties =>
      Some ("{" +:+
            join "," (omap (fun p => member (fst p) <$> SerializeJSONProperty (snd p)) properties)
            +:+ "}")
  end.

Definition JSON_stringify (v : value) : option string := SerializeJSONProperty v.

End JS.

(** *** Promises, [fetch] and [Response] *)

Module Async.

(** What a promise rejects with (what [throw] throws): an error object with
    its [name] and [message]. *)
Record Error : Type := mkError { name : string; message : string }.

(** [new Error(message)]. *)
Definition new_Error (msg : string) : Error := mkError "Error" msg.

Inductive outcome (A : Type) : Type :=
| Resolved (a : A)
| Rejected (e : Error).
Arguments Resolved {A} a.
Arguments Rejected {A} e.

(** The second argument of [fetch]; an absent member is [None]. *)
Record RequestInit : Type := mkRequestInit {
  method : option string;
  body : option string;
  headers : option (gmap string string)
}.

(** A [Response] as the client observes it: [status], and what
    [response.json()] settles to ([None] when it rejects because the body
    is not JSON text). *)
Record Response : Type := mkResponse {
  status : N;
  json : option JS.value
}.

(** [response.ok]: the status lies in 200..299. *)
Definition ok (r : Response) : bool :=
  ((200 <=? status r) && (status r <=? 299))%N.

(** One call of [fetch(url, init)], and the network that answers it. *)
Definition FetchCall : Type := string * RequestInit.
Definition Network : Type := string -> RequestInit -> outcome Response.

(** An asynchronous computation reads the network and extends the trace of
    [fetch] calls made so far. *)
Definition async (A : Type) : Type :=
  Network -> list FetchCall -> outcome A * list FetchCall.

Definition ret {A} (a : A) : async A :=
  fun _ trace => (Resolved a, trace).

Definition throw {A} (e : Error) : async A :=
  fun _ trace => (Rejected e, trace).

Definition bind {A B} (m : async A) (k : A -> async B) : async B :=
  fun net trace =>
    match m net trace with
    | (Resolved a, trace') => k a net trace'
    | (Rejected e, trace') => (Rejected e, trace')
    end.

Definition try_catch {A} (m : async A) (handler : Error -> async A) : async A :=
  fun net trace =>
    match m net trace with
    | (Resolved a, trace') => (Resolved a, trace')
    | (Rejected e, trace') => handler e net trace'
    end.

Definition fetch (url : string) (init : RequestInit) : async Response :=
  fun net trace => (net url init, (trace ++ [(url, init)])%list).

Definition SyntaxError : Error :=
  mkError "SyntaxError" "Unexpected token in JSON".

Definition Response_json (r : Response) : async JS.value :=
  match json r with
  | Some v => ret v
  | None => throw SyntaxError
  end.

Definition run {A} (m : async A) (net : Network) : outcome A * list FetchCall :=
  m net [].

End Async.

Notation "'await' x <- m ; k" := (Async.bind m (fun x => k))
  (at level 10, x name, m at level 100, k at level 200,
   format "'[v' 'await'  x  <-  m ; '/' k ']'").

(** ** The client *)

Module SDK.
Import JS Async.

Record SDKConfig : Type := mkSDKConfig {
  config_baseUrl : string;
  config_apiKey : string
}.

(** The two private fields of [class CloudComputeSDK]. *)
Record CloudComputeSDK : Type := mkSDK {
  baseUrl : string;
  apiKey : string
}.

(** [constructor(config)]. *)
Definition new (config : SDKConfig) : CloudComputeSDK :=
  {| baseUrl := replace_trailing_slash (config_baseUrl config);
     apiKey := config_apiKey config |}.

(** The default [options = {}]. *)
Definition no_options : RequestInit := mkRequestInit None None None.

(** [{ 'Content-Type': ..., 'x-api-key': this.apiKey, ...options.headers }]:
    the properties spread last win. *)
Definition merged_headers (this : CloudComputeSDK) (options : RequestInit)
  : gmap string string :=
  default ∅ (headers options)
  ∪ <["x-api-key" := apiKey this]> (<["Content-Type" := "application/json"]> ∅).

(** The second argument of [fetch]: [{ ...options, headers: { ... } }]. *)
Definition request_init (this : CloudComputeSDK) (options : RequestInit) : RequestInit :=
  {| method := method options;
     body := body options;
     headers := Some (merged_headers this options) |}.

(** The object the [catch] clause puts in place of the body. *)
Definition parse_failure : value :=
  Obj [("error", Str "Failed to parse response body as JSON")].

(** [private async request<T>(endpoint, options = {})]. *)
Definition request (this : CloudComputeSDK) (endpoint : string) (options : RequestInit)
  : async value :=
  let url := baseUrl this +:+ endpoint in
  await response <- fetch url (request_init this options);
  await parsed <- try_catch (Response_json response) (fun _ => ret parse_failure);
  if negb (ok response) then
    let message := "HTTP " +:+ N_toString (status response) in
    let message :=
      if typeof_object parsed && negb (is_null parsed)
         && has_property "error" parsed && typeof_string (get "error" parsed)
      then match get "error" parsed with
           | Str s => s
           | _ => message
           end
      else message in
    throw (new_Error message)
  else ret parsed.

(** *** Optional arguments

    A member declared [name?: T] is absent ([undefined]), or, from an
    untyped caller, [null], or a value of [T]. *)
Inductive optional (A : Type) : Type :=
| Absent
| IsNull
| Present (a : A).
Arguments Absent {A}.
Arguments IsNull {A}.
Arguments Present {A} a.

(** [params?.member] for an optional [params] argument. *)
Definition optional_chain {P A} (params : option P) (member : P -> optional A)
  : optional A :=
  match params with
  | None => Absent
  | Some p => member p
  end.

(** [if (x) searchParams.set(name, x)] for a string [x]. *)
Definition set_if_string (name : string) (x : optional string) (searchParams : URLSearchParams)
  : URLSearchParams :=
  match x with
  | Present s =>
      if ToBoolean_string s then URLSearchParams_set name s searchParams
      else searchParams
  | _ => searchParams
  end.

(** [if (x) searchParams.set(name, x.toString())] for a number [x]. *)
Definition set_if_number (name : string) (x : optional number) (searchParams : URLSearchParams)
  : URLSearchParams :=
  match x with
  | Present n =>
      if ToBoolean_number n
      then URLSearchParams_set name (Number_toString n) searchParams
      else searchParams
  | _ => searchParams
  end.

(** [`${path}${searchParams.toString() ? `?${searchParams}` : ''}`]. *)
Definition with_query (path : string) (searchParams : URLSearchParams) : string :=
  path +:+
  (if ToBoolean_string (URLSearchParams_toString searchParams)
   then "?" +:+ URLSearchParams_toString searchParams
   else "").

(** *** providers *)

Definition providers_list (this : CloudComputeSDK) : async value :=
  request this "/sdk-providers" no_options.

Definition providers_getRegions (this : CloudComputeSDK) (providerId : optional string)
  : async value :=
  let searchParams := URLSearchParams_new in
  let searchParams := set_if_string "provider_id" providerId searchParams in
  let endpoint := with_query "/sdk-providers/regions" searchParams in
  request this endpoint no_options.

Definition providers_getTemplates (this : CloudComputeSDK) (providerId : optional string)
  : async value :=
  let searchParams := URLSearchParams_new in
  let searchParams := set_if_string "provider_id" providerId searchParams in
  let endpoint := with_query "/sdk-providers/templates" searchParams in
  request this endpoint no_options.

(** *** inventory *)

Module InventoryListParams.
Record t : Type := mk {
  provider_id : optional string;
  region_id : optional string;
  instance_type : optional string;
  min_vcpu : optional number;
  max_price_usd_hr : optional number;
  accel_model : optional string;
  availability_type : optional string;
  limit : optional number;
  offset : optional number
}.
End InventoryListParams.

Definition inventory_list_searchParams (params : option InventoryListParams.t)
  : URLSearchParams :=
  let searchParams := URLSearchParams_new in
  let searchParams := set_if_string "provider_id" (optional_chain params InventoryListParams.provider_id) searchParams in
  let searchParams := set_if_string "region_id" (optional_chain params InventoryListParams.region_id) searchParams in
  let searchParams := set_if_string "instance_type" (optional_chain params InventoryListParams.instance_type) searchParams in
  let searchParams := set_if_number "min_vcpu" (optional_chain params InventoryListParams.min_vcpu) searchParams in
  let searchParams := set_if_number "max_price_usd_hr" (optional_chain params InventoryListParams.max_price_usd_hr) searchParams in
  let searchParams := set_if_string "accel_model" (optional_chain params InventoryListParams.accel_model) searchParams in
  let searchParams := set_if_string "availability_type" (optional_chain params InventoryListParams.availability_type) searchParams in
  let searchParams := set_if_number "limit" (optional_chain params InventoryListParams.limit) searchParams in
  let searchParams := set_if_number "offset" (optional_chain params InventoryListParams.offset) searchParams in
  searchParams.

Definition inventory_list (this : CloudComputeSDK) (params : option InventoryListParams.t)
  : async value :=
  let searchParams := inventory_list_searchParams params in
  let endpoint := with_query "/sdk-inventory" searchParams in
  request this endpoint no_options.

Definition inventory_get (this : CloudComputeSDK) (inventoryId : string) : async value :=
  request this ("/sdk-inventory/" +:+ inventoryId) no_options.

Module ByProviderParams.
Record t : Type := mk {
  region_code : optional string;
  instance_type : optional string;
  min_vcpu : optional number;
  max_price_usd_hr : optional number;
  limit : optional number;
  offset : optional number
}.
End ByProviderParams.

Definition inventory_getByProvider_searchParams
  (providerName : string) (params : option ByProviderParams.t) : URLSearchParams :=
  let searchParams := URLSearchParams_new in
  let searchParams := URLSearchParams_set "provider" providerName searchParams in
  let searchParams := set_if_string "region_code" (optional_chain params ByProviderParams.region_code) searchParams in
  let searchParams := set_if_string "instance_type" (optional_chain params ByProviderParams.instance_type) searchParams in
  let searchParams := set_if_number "min_vcpu" (optional_chain params ByProviderParams.min_vcpu) searchParams in
  let searchParams := set_if_number "max_price_usd_hr" (optional_chain params ByProviderParams.max_price_usd_hr) searchParams in
  let searchParams := set_if_number "limit" (optional_chain params ByProviderParams.limit) searchParams in
  let searchParams := set_if_number "offset" (optional_chain params ByProviderParams.offset) searchParams in
  searchParams.

Definition inventory_getByProvider (this : CloudComputeSDK)
  (providerName : string) (params : option ByProviderParams.t) : async value :=
  let searchParams := inventory_getByProvider_searchParams providerName params in
  let endpoint := with_query ("/sdk-inventory/provider/" +:+ providerName) searchParams in
  request this endpoint no_options.

(** *** deployments *)

(** [deployments.create(params)]: [params] is the caller's object, given by
    its own properties in insertion order (for a [CreateDeploymentRequest]:
    [cloud_inventory_id] and any of [rental_duration_hours],
    [deployment_type], [ssh_public_key], [tags]). *)
Definition deployments_create (this : CloudComputeSDK) (params : list (string * value))
  : async value :=
  request this "/sdk-deployments"
    {| method := Some "POST";
       body := JSON_stringify (Obj params);
       headers := None |}.

Module DeploymentListParams.
Record t : Type := mk {
  limit : optional number;
  offset : optional number;
  status : optional string
}.
End DeploymentListParams.

Definition deployments_list (this : CloudComputeSDK) (params : option DeploymentListParams.t)
  : async value :=
  let searchParams := URLSearchParams_new in
  let searchParams := set_if_number "limit" (optional_chain params DeploymentListParams.limit) searchParams in
  let searchParams := set_if_number "offset" (optional_chain params DeploymentListParams.offset) searchParams in
  let searchParams := set_if_string "status" (optional_chain params DeploymentListParams.status) searchParams in
  let endpoint := with_query "/sdk-deployments" searchParams in
  request this endpoint no_options.

Definition deployments_get (this : CloudComputeSDK) (deploymentId : string) : async value :=
  request this ("/sdk-deployments/" +:+ deploymentId) no_options.

(** *** usage *)

Module UsageLogsParams.
Record t : Type := mk {
  limit : optional number;
  offset : optional number;
  start_date : optional string;
  end_date : optional string;
  endpoint : optional string
}.
End UsageLogsParams.

Definition usage_getLogs (this : CloudComputeSDK) (params : option UsageLogsParams.t)
  : async value :=
  let searchParams := URLSearchParams_new in
  let searchParams := set_if_number "limit" (optional_chain params UsageLogsParams.limit) searchParams in
  let searchParams := set_if_number "offset" (optional_chain params UsageLogsParams.offset) searchParams in
  let searchParams := set_if_string "start_date" (optional_chain params UsageLogsParams.start_date) searchParams in
  let searchParams := set_if_string "end_date" (optional_chain params UsageLogsParams.end_date) searchParams in
  let searchParams := set_if_string "endpoint" (optional_chain params UsageLogsParams.endpoint) searchParams in
  let endpoint := with_query "/sdk-usage-tracking/logs" searchParams in
  request this endpoint no_options.

Module PeriodParams.
Record t : Type := mk {
  start_date : optional string;
  end_date : optional string
}.
End PeriodParams.

Definition usage_getSummary (this : CloudComputeSDK) (params : option PeriodParams.t)
  : async value :=
  let searchParams := URLSearchParams_new in
  let searchParams := set_if_string "start_date" (optional_chain params PeriodParams.start_date) searchParams in
  let searchParams := set_if_string "end_date" (optional_chain params PeriodParams.end_date) searchParams in
  let endpoint := with_query "/sdk-usage-tracking/summary" searchParams in
  request this endpoint no_options.

Definition usage_getBilling (this : CloudComputeSDK) (params : option PeriodParams.t)
  : async value :=
  let searchParams := URLSearchParams_new in
  let searchParams := set_if_string "start_date" (optional_chain params PeriodParams.start_date) searchParams in
  let searchParams := set_if_string "end_date" (optional_chain params PeriodParams.end_date) searchParams in
  let endpoint := with_query "/sdk-usage-tracking/billing" searchParams in
  request this endpoint no_options.

(** *** Every public call

    One constructor per method of the four resource groups, with its
    arguments. *)
Inductive call : Type :=
| ProvidersList
| ProvidersGetRegions (providerId : optional string)
| ProvidersGetTemplates (providerId : optional string)
| InventoryList (params : option InventoryListParams.t)
| InventoryGet (inventoryId : string)
| InventoryGetByProvider (providerName : string) (params : option ByProviderParams.t)
| DeploymentsCreate (params : list (string * value))
| DeploymentsList (params : option DeploymentListParams.t)
| DeploymentsGet (deploymentId : string)
| UsageGetLogs (params : option UsageLogsParams.t)
| UsageGetSummary (params : option PeriodParams.t)
| UsageGetBilling (params : option PeriodParams.t).

Definition invoke (this : CloudComputeSDK) (c : call) : async value :=
  match c with
  | ProvidersList => providers_list this
  | ProvidersGetRegions providerId => providers_getRegions this providerId
  | ProvidersGetTemplates providerId => providers_getTemplates this providerId
  | InventoryList params => inventory_list this params
  | InventoryGet inventoryId => inventory_get this inventoryId
  | InventoryGetByProvider providerName params =>
      inventory_getByProvider this providerName params
  | DeploymentsCreate params => deployments_create this params
  | DeploymentsList params => deployments_list this params
  | DeploymentsGet deploymentId => deployments_get this deploymentId
  | UsageGetLogs params => usage_getLogs this params
  | UsageGetSummary params => usage_getSummary this params
  | UsageGetBilling params => usage_getBilling this params
  end.

End SDK.

(** ** Statements the specification makes, in its own words *)

Module Stated.
Import JS Async SDK.

(** A string parameter is left out when absent, [null] or empty. *)
Definition string_entry (x : optional string) : option string :=
  match x with
  | Present s => if String.eqb s "" then None else Some s
  | _ => None
  end.

Definition is_zero (n : number) : bool :=
  match n with
  | Zero _ => true
  | _ => false
  end.

Definition is_NaN (n : number) : bool :=
  match n with
  | NaN => true
  | _ => false
  end.

(** A numeric parameter is left out when absent, [null] or zero; every
    other value goes in by its string form. *)
Definition number_entry (x : optional number) : option string :=
  match x with
  | Present n => if is_zero n then None else Some (Number_toString n)
  | _ => None
  end.

(** The same, with [NaN] left out as well. *)
Definition number_entry_truthy (x : optional number) : option string :=
  match x with
  | Present n => if is_zero n || is_NaN n then None else Some (Number_toString n)
  | _ => None
  end.

(** A query string from named entries in order: each entry that has a value
    gives [name=value], the value form-urlencoded, joined by [&]. *)
Definition pair_text (e : string * option string) : option string :=
  (fun v => fst e +:+ "=" +:+ urlencoded v) <$> snd e.

Definition query_of (entries : list (string * option string)) : string :=
  join "&" (omap pair_text entries).

(** The nine parameters of [inventory.list] in their declared order, under
    a given rule for the numeric ones. *)
Definition inventory_list_entries
  (numeric : optional number -> option string)
  (params : option InventoryListParams.t) : list (string * option string) :=
  [ ("provider_id", string_entry (optional_chain params InventoryListParams.provider_id));
    ("region_id", string_entry (optional_chain params InventoryListParams.region_id));
    ("instance_type", string_entry (optional_chain params InventoryListParams.instance_type));
    ("min_vcpu", numeric (optional_chain params InventoryListParams.min_vcpu));
    ("max_price_usd_hr", numeric (optional_chain params InventoryListParams.max_price_usd_hr));
    ("accel_model", string_entry (optional_chain params InventoryListParams.accel_model));
    ("availability_type", string_entry (optional_chain params InventoryListParams.availability_type));
    ("limit", numeric (optional_chain params InventoryListParams.limit));
    ("offset", numeric (optional_chain params InventoryListParams.offset)) ].

(** The six optional parameters of [inventory.getByProvider]. *)
Definition by_provider_entries (params : option ByProviderParams.t)
  : list (string * option string) :=
  [ ("region_code", string_entry (optional_chain params ByProviderParams.region_code));
    ("instance_type", string_entry (optional_chain params ByProviderParams.instance_type));
    ("min_vcpu", number_entry_truthy (optional_chain params ByProviderParams.min_vcpu));
    ("max_price_usd_hr", number_entry_truthy (optional_chain params ByProviderParams.max_price_usd_hr));
    ("limit", number_entry_truthy (optional_chain params ByProviderParams.limit));
    ("offset", number_entry_truthy (optional_chain params ByProviderParams.offset)) ].

(** The tuple an entry with a value stands for, and the entries set one
    after the other on a parameter list. *)
Definition entry_tuple (e : string * option string) : option (string * string) :=
  (fun v => (fst e, v)) <$> snd e.

Definition apply_entry (searchParams : URLSearchParams) (e : string * option string)
  : URLSearchParams :=
  match snd e with
  | Some v => URLSearchParams_set (fst e) v searchParams
  | None => searchParams
  end.

(** The characters the form-urlencoded serializer can emit: letters,
    digits, [*], [-], [.], [_], and [+] and [%] from its own escapes. *)
Definition is_query_safe (c : ascii) : bool :=
  let n := N_of_ascii c in
  is_alphanumeric c
  || (n =? 42)%N || (n =? 45)%N || (n =? 46)%N || (n =? 95)%N
  || (n =? 43)%N || (n =? 37)%N.

Fixpoint string_forall (f : ascii -> bool) (s : string) : bool :=
  match s with
  | EmptyString => true
  | String c rest => f c && string_forall f rest
  end.

(** The example inputs of [inventory.list]: the filters
    [{min_vcpu: 4, max_price_usd_hr: 1.0, limit: 20}], and a filter whose
    [min_vcpu] is [NaN]. *)
Definition example_filters : InventoryListParams.t :=
  InventoryListParams.mk Absent Absent Absent
    (Present (number_of_Z 4)) (Present (number_of_Z 1))
    Absent Absent (Present (number_of_Z 20)) Absent.

Definition NaN_filters : InventoryListParams.t :=
  InventoryListParams.mk Absent Absent Absent
    (Present NaN) Absent Absent Absent Absent Absent.

(** The separator is doubled where [base] meets [endpoint]. *)
Definition doubled_at_join (base endpoint : string) : bool :=
  endsWith "/" base && startsWith "/" endpoint.

(** The URLs of the [fetch] calls a computation makes. *)
Definition urls_fetched {A} (m : async A) (net : Network) : list string :=
  List.map fst (snd (run m net)).

(** The keys of an object whose value is not [undefined]. *)
Definition is_undefined (v : value) : bool :=
  match v with
  | Undefined => true
  | _ => false
  end.

Definition supplied_keys (params : list (string * value)) : list string :=
  List.map fst (List.filter (fun p => negb (is_undefined (snd p))) params).

(** The JSON texts of those values, in the same order. *)
Definition value_texts (params : list (string * value)) : list string :=
  omap (fun p => SerializeJSONProperty (snd p)) params.

Definition quoted (s : string) : string := dquote +:+ s +:+ dquote.

(** The argument [{cloud_inventory_id: 'abc', rental_duration_hours: 24}]
    of [deployments.create], and a reply of the server to it. *)
Definition example_deployment : list (string * value) :=
  [("cloud_inventory_id", Str "abc"); ("rental_duration_hours", Num (number_of_Z 24))].

Definition example_reply : value :=
  Obj [("message", Str "Deployment created");
       ("data", Obj [("deployment_id", Str "d-1"); ("status", Str "pending");
                     ("cost_usd", Num (number_of_Z 12));
                     ("duration_hours", Num (number_of_Z 24));
                     ("created_at", Str "2025-01-01T00:00:00Z")])].

(** An input of [inventory.list] with every parameter absent. *)
Definition no_filters : InventoryListParams.t :=
  InventoryListParams.mk Absent Absent Absent Absent Absent Absent Absent Absent Absent.

(** The optional parameters of [deployments.list], [usage.getLogs] and of
    [usage.getSummary] and [usage.getBilling], in the order the code sets
    them. *)
Definition deployments_list_entries (params : option DeploymentListParams.t)
  : list (string * option string) :=
  [ ("limit", number_entry_truthy (optional_chain params DeploymentListParams.limit));
    ("offset", number_entry_truthy (optional_chain params DeploymentListParams.offset));
    ("status", string_entry (optional_chain params DeploymentListParams.status)) ].

Definition usage_logs_entries (params : option UsageLogsParams.t)
  : list (string * option string) :=
  [ ("limit", number_entry_truthy (optional_chain params UsageLogsParams.limit));
    ("offset", number_entry_truthy (optional_chain params UsageLogsParams.offset));
    ("start_date", string_entry (optional_chain params UsageLogsParams.start_date));
    ("end_date", string_entry (optional_chain params UsageLogsParams.end_date));
    ("endpoint", string_entry (optional_chain params UsageLogsParams.endpoint)) ].

Definition period_entries (params : option PeriodParams.t)
  : list (string * option string) :=
  [ ("start_date", string_entry (optional_chain params PeriodParams.start_date));
    ("end_date", string_entry (optional_chain params PeriodParams.end_date)) ].

(** A path followed by a query, the [?] only before a query that is not
    empty. *)
Definition path_and_query (path query : string) : string :=
  path +:+ (if String.eqb query "" then "" else "?" +:+ query).

Definition is_resolved {A} (o : outcome A) : bool :=
  match o with
  | Resolved _ => true
  | Rejected _ => false
  end.

Fixpoint count_char (c : ascii) (s : string) : nat :=
  match s with
  | EmptyString => 0
  | String a rest => (if Ascii.eqb a c then 1 else 0) + count_char c rest
  end.

(** What a [fetch] call shows apart from its headers. *)
Definition without_headers (call : FetchCall) : string * option string * option string :=
  (fst call, method (snd call), body (snd call)).

End Stated.

(** ** Properties *)

Module Properties.
Import JS Async SDK Stated.

(** *** The platform model on known values *)

Example Number_toString_values :
  Number_toString (number_of_Z 4) = "4" /\
  Number_toString (number_of_Z 20) = "20" /\
  Number_toString (number_of_Z (-1200)) = "-1200" /\
  Number_toString (Finite false 15 0) = "0.15" /\
  Number_toString (Finite false 9 1) = "9" /\
  Number_toString (Finite false 123 22) = "1.23e+21" /\
  Number_toString (Finite false 15 (-7)) = "1.5e-8" /\
  Number_toString (Zero true) = "0" /\
  Number_toString (Infinity true) = "-Infinity".
Proof. repeat split. Qed.

Example urlencoded_values :
  urlencoded "us-east-1" = "us-east-1" /\
  urlencoded "m5.large" = "m5.large" /\
  urlencoded "a b/c?d=e&f" = "a+b%2Fc%3Fd%3De%26f" /\
  urlencoded "2025-01-01T00:00:00Z" = "2025-01-01T00%3A00%3A00Z".
Proof. repeat split. Qed.

Example URLSearchParams_set_values :
  URLSearchParams_set "a" "3" [("a", "1"); ("b", "2"); ("a", "4")]
  = [("a", "3"); ("b", "2")] /\
  URLSearchParams_set "c" "3" [("a", "1"); ("b", "2")]
  = [("a", "1"); ("b", "2"); ("c", "3")] /\
  URLSearchParams_toString [("a", "1"); ("b", "x y")] = "a=1&b=x+y".
Proof. repeat split. Qed.

Example replace_trailing_slash_values :
  replace_trailing_slash "https://host/v1/" = "https://host/v1" /\
  replace_trailing_slash "https://host/v1" = "https://host/v1" /\
  replace_trailing_slash "/" = "" /\
  replace_trailing_slash "a/b" = "a/b".
Proof. repeat split. Qed.

Example JSON_stringify_values :
  JSON_stringify Undefined = None /\
  JSON_stringify (Arr [Undefined; Null; Bool true; Num NaN]) = Some "[null,null,true,null]" /\
  JSON_stringify (Obj [("a", Undefined); ("b", Num (number_of_Z 1))])
  = Some ("{" +:+ quoted "b" +:+ ":1}") /\
  JSON_stringify (Str "a\b") = Some (quoted "a\\b").
Proof. repeat split. Qed.

(** *** The request layer, step by step *)

Lemma request_trace this endpoint options net :
  snd (run (request this endpoint options) net)
  = [(baseUrl this +:+ endpoint, request_init this options)].
Proof.
  unfold run, request, bind, fetch, try_catch, Response_json; cbn.
  destruct (net _ _) as [r|e]; [|reflexivity].
  destruct (json r); cbn; destruct (ok r); reflexivity.
Qed.

Lemma request_rejected this endpoint options net e :
  net (baseUrl this +:+ endpoint) (request_init this options) = Rejected e ->
  fst (run (request this endpoint options) net) = Rejected e.
Proof.
  intros H. unfold run, request, bind, fetch; cbn. rewrite H. reflexivity.
Qed.

Lemma request_resolved this endpoint options net r :
  net (baseUrl this +:+ endpoint) (request_init this options) = Resolved r ->
  fst (run (request this endpoint options) net)
  = let parsed := default parse_failure (json r) in
    if ok r then Resolved parsed
    else Rejected (new_Error
           (match parsed with
            | Obj props =>
                match get_property "error" props with
                | Some (Str m) => m
                | _ => "HTTP " +:+ N_toString (status r)
                end
            | _ => "HTTP " +:+ N_toString (status r)
            end)).
Proof.
  intros H. unfold run, request, bind, fetch, try_catch, Response_json; cbn.
  rewrite H.
  destruct (json r) as [v|]; cbn; destruct (ok r); cbn; try reflexivity.
  destruct v as [| |b|x|s|l|props]; cbn; try reflexivity.
  destruct (get_property "error" props) as [[| |b|x|s|l|ps]|] eqn:E; cbn;
    rewrite ?andb_false_r; try reflexivity.
Qed.

(** Every public method is one call of [request] whose endpoint and options
    do not depend on the client, and none passes headers of its own. *)
Lemma invoke_request (c : call) :
  exists endpoint options,
    headers options = None /\
    forall this, invoke this c = request this endpoint options.
Proof.
  destruct c; cbn; eexists _, _; (split; [|intros this; reflexivity]); reflexivity.
Qed.


(** *** Failures reported by the server *)

(** C1: for a response whose status is outside 200..299 the call rejects
    with an error whose message is the [error] member of the decoded body
    when that member is a string, and otherwise the text [HTTP ] followed
    by the status in decimal.  The decoded body is what [response.json()]
    gave, or the substitute of the [catch] clause when it gave nothing.
    Status 400 with the body [{error: 'Insufficient wallet balance'}] gives
    exactly that message; status 500 with a decoded body that has no string
    [error] member gives exactly [HTTP 500]. *)
Theorem request_error_message this endpoint options net r :
  net (baseUrl this +:+ endpoint) (request_init this options) = Resolved r ->
  ok r = false ->
  let decoded := default parse_failure (json r) in
  let thrown := fst (run (request this endpoint options) net) in
  (forall m, get "error" decoded = Str m -> thrown = Rejected (new_Error m)) /\
  ((forall m, get "error" decoded <> Str m) ->
     thrown = Rejected (new_Error ("HTTP " +:+ N_toString (status r)))) /\
  (status r = 400%N ->
   json r = Some (Obj [("error", Str "Insufficient wallet balance")]) ->
     thrown = Rejected (new_Error "Insufficient wallet balance")) /\
  (status r = 500%N -> (forall m, get "error" decoded <> Str m) ->
     thrown = Rejected (new_Error "HTTP 500")).
Proof.
  intros Hnet Hok decoded thrown.
  assert (Hthrown : thrown =
    Rejected (new_Error
      (match get "error" decoded with
       | Str m => m
       | _ => "HTTP " +:+ N_toString (status r)
       end))).
  { subst thrown. rewrite (request_resolved _ _ _ _ _ Hnet). cbn zeta.
    fold decoded. rewrite Hok.
    destruct decoded as [| |b|x|s|l|props]; cbn; try reflexivity.
    destruct (get_property "error" props) as [[| |b|x|s|l|ps]|]; reflexivity. }
  assert (Hstr : forall m, get "error" decoded = Str m -> thrown = Rejected (new_Error m)).
  { intros m Hm. rewrite Hthrown, Hm. reflexivity. }
  assert (Hnone : (forall m, get "error" decoded <> Str m) ->
            thrown = Rejected (new_Error ("HTTP " +:+ N_toString (status r)))).
  { intros Hno. rewrite Hthrown.
    destruct (get "error" decoded) as [| |b|x|s|l|props] eqn:E; try reflexivity.
    exfalso. exact (Hno s eq_refl). }
  repeat split; try assumption.
  - intros _ Hjson. apply Hstr. subst decoded. rewrite Hjson. reflexivity.
  - intros Hst Hno. rewrite (Hnone Hno), Hst. reflexivity.
Qed.

Lemma request_error_message_witness :
  let this := new (mkSDKConfig "https://host/v1" "k") in
  let answer r := fst (run (request this "/sdk-deployments" no_options)
                           (fun _ _ => Resolved r)) in
  answer (mkResponse 400 (Some (Obj [("error", Str "Insufficient wallet balance")])))
  = Rejected (new_Error "Insufficient wallet balance") /\
  answer (mkResponse 500 (Some (Obj [("message", Str "boom"); ("error", Num (number_of_Z 7))])))
  = Rejected (new_Error "HTTP 500") /\
  answer (mkResponse 502 None)
  = Rejected (new_Error "Failed to parse response body as JSON").
Proof.
  intros this answer. unfold answer. split; [|split].
  - apply (request_error_message this "/sdk-deployments" no_options
             (fun _ _ => Resolved (mkResponse 400 _)) _ eq_refl eq_refl); reflexivity.
  - apply (request_error_message this "/sdk-deployments" no_options
             (fun _ _ => Resolved (mkResponse 500 _)) _ eq_refl eq_refl);
      [reflexivity | intros m; discriminate].
  - apply (request_error_message this "/sdk-deployments" no_options
             (fun _ _ => Resolved (mkResponse 502 None)) _ eq_refl eq_refl); reflexivity.
Defined.

(** C2: when the response has status 200 (or any status in 200..299) and
    [response.json()] rejects because the body is not JSON, the call
    resolves, and the value it resolves with is the object
    [{error: 'Failed to parse response body as JSON'}]. *)
Theorem request_parse_failure_resolves this endpoint options net r :
  net (baseUrl this +:+ endpoint) (request_init this options) = Resolved r ->
  ok r = true ->
  json r = None ->
  fst (run (request this endpoint options) net)
  = Resolved (Obj [("error", Str "Failed to parse response body as JSON")]).
Proof.
  intros Hnet Hok Hjson.
  rewrite (request_resolved _ _ _ _ _ Hnet). cbn zeta.
  rewrite Hok, Hjson. reflexivity.
Qed.

Lemma request_parse_failure_resolves_witness :
  fst (run (request (new (mkSDKConfig "https://host/v1" "k")) "/sdk-providers" no_options)
           (fun _ _ => Resolved (mkResponse 200 None)))
  = Resolved (Obj [("error", Str "Failed to parse response body as JSON")]).
Proof.
  apply (request_parse_failure_resolves _ _ _ (fun _ _ => Resolved (mkResponse 200 None))
           (mkResponse 200 None)); reflexivity.
Defined.

(** *** Failures of the transport *)

(** C9: when the [fetch] call a method makes rejects with an error, the
    method rejects with that same error: it is not caught, not replaced by
    the parse-failure object, and its message is not rewritten.  Exactly one
    [fetch] call has been made. *)
Theorem transport_error_propagates this c net url init e :
  snd (run (invoke this c) net) = [(url, init)] ->
  net url init = Rejected e ->
  run (invoke this c) net = (Rejected e, [(url, init)]).
Proof.
  destruct (invoke_request c) as (endpoint & options & _ & Hc).
  rewrite Hc. intros Htrace Hnet.
  rewrite request_trace in Htrace. injection Htrace as <- <-.
  rewrite (surjective_pairing (run _ _)).
  rewrite request_trace, (request_rejected _ _ _ _ _ Hnet). reflexivity.
Qed.

Lemma transport_error_propagates_witness :
  let this := new (mkSDKConfig "https://host/v1/" "k") in
  let e := mkError "TypeError" "fetch failed" in
  run (invoke this ProvidersList) (fun _ _ => Rejected e)
  = (Rejected e, [("https://host/v1/sdk-providers", request_init this no_options)]).
Proof.
  intros this e.
  apply (transport_error_propagates this ProvidersList (fun _ _ => Rejected e)
           "https://host/v1/sdk-providers" (request_init this no_options) e);
    reflexivity.
Defined.

(** *** Headers *)

(** C6: every method of every resource group, called on the client the
    constructor makes from a configuration, makes one [fetch] call, and (no
    method passing headers of its own) that call carries the header
    [x-api-key] with the key of the configuration and the header
    [Content-Type] with [application/json]. *)
Theorem fixed_headers_on_every_call config c net :
  exists url init hs,
    snd (run (invoke (new config) c) net) = [(url, init)] /\
    headers init = Some hs /\
    hs !! "x-api-key" = Some (config_apiKey config) /\
    hs !! "Content-Type" = Some "application/json".
Proof.
  destruct (invoke_request c) as (endpoint & options & Hh & Hc).
  rewrite Hc, request_trace.
  eexists _, _, _. split; [reflexivity|]. split; [reflexivity|].
  unfold merged_headers. rewrite Hh. cbn [default].
  rewrite (left_id_L ∅ (∪)).
  unfold new; cbn [apiKey].
  split.
  - apply lookup_insert_eq.
  - rewrite lookup_insert_ne by discriminate. apply lookup_insert_eq.
Qed.

(** *** The base URL *)

Lemma append_assoc (a b c : string) : (a +:+ b) +:+ c = a +:+ (b +:+ c).
Proof.
  induction a as [|x a IH]; [reflexivity|].
  change (String x ((a +:+ b) +:+ c) = String x (a +:+ (b +:+ c))).
  f_equal. exact IH.
Qed.

Lemma append_cons (x : ascii) (a b : string) : String x a +:+ b = String x (a +:+ b).
Proof. reflexivity. Qed.

Lemma endsWith_append (s : string) :
  endsWith "/" s = true <-> exists p, s = p +:+ "/".
Proof.
  induction s as [|a s IH].
  - split; [discriminate | intros [[|x p] H]; discriminate].
  - destruct s as [|b s].
    + cbn. split.
      * intros H. apply Ascii.eqb_eq in H as ->. exists "". reflexivity.
      * intros [[|x [|y p]] H]; cbn in H; try discriminate.
        injection H as ->. reflexivity.
    + change (endsWith "/" (String a (String b s))) with (endsWith "/" (String b s)).
      rewrite IH. split.
      * intros [p ->]. exists (String a p). reflexivity.
      * intros [[|x p] H]; [discriminate|].
        rewrite append_cons in H. injection H as -> H. exists p. exact H.
Qed.

Lemma replace_trailing_slash_append (p : string) :
  replace_trailing_slash (p +:+ "/") = p.
Proof.
  induction p as [|a p IH]; [reflexivity|].
  rewrite append_cons. destruct p as [|b p].
  - reflexivity.
  - rewrite append_cons in *. cbn [replace_trailing_slash]. f_equal. exact IH.
Qed.

Lemma replace_trailing_slash_id (s : string) :
  endsWith "/" s = false -> replace_trailing_slash s = s.
Proof.
  induction s as [|a s IH]; [reflexivity|].
  destruct s as [|b s].
  - cbn. intros ->. reflexivity.
  - intros H. cbn [replace_trailing_slash]. f_equal. apply IH. exact H.
Qed.

(** C4 (as the code has it): the constructor removes exactly one trailing
    separator from the base URL when there is one and changes nothing
    otherwise; joined with an endpoint, the separator is doubled at the join
    exactly when the endpoint begins with one and the configured base URL
    ends with two. *)
Theorem base_url_strips_one_separator b k endpoint :
  let this := new (mkSDKConfig b k) in
  (forall p, b = p +:+ "/" -> baseUrl this = p) /\
  (endsWith "/" b = false -> baseUrl this = b) /\
  (doubled_at_join (baseUrl this) endpoint = true <->
     startsWith "/" endpoint = true /\ exists p, b = p +:+ "//").
Proof.
  intros this. subst this. unfold new; cbn [baseUrl config_baseUrl].
  split; [|split].
  - intros p ->. apply replace_trailing_slash_append.
  - apply replace_trailing_slash_id.
  - unfold doubled_at_join. rewrite andb_true_iff, endsWith_append.
    split.
    + intros [[q Hq] Hs]. split; [exact Hs|].
      destruct (endsWith "/" b) eqn:Hb.
      * apply endsWith_append in Hb as [p ->].
        rewrite replace_trailing_slash_append in Hq. subst p.
        exists q. rewrite append_assoc. reflexivity.
      * rewrite (replace_trailing_slash_id _ Hb) in Hq.
        assert (endsWith "/" b = true) as Hb' by (apply endsWith_append; eauto).
        congruence.
    + intros [Hs [p ->]]. split; [|exact Hs].
      exists p. change "//" with ("/" +:+ "/").
      rewrite <- append_assoc. apply replace_trailing_slash_append.
Qed.

(** C4, as stated, fails: a base URL that ends with two separators keeps
    one after the constructor, and the join with an endpoint doubles it. *)
Lemma join_doubled_after_two_separators :
  let this := new (mkSDKConfig "https://host/v1//" "k") in
  startsWith "/" "/sdk-providers" = true /\
  baseUrl this = "https://host/v1/" /\
  doubled_at_join (baseUrl this) "/sdk-providers" = true /\
  urls_fetched (providers_list this) (fun _ _ => Resolved (mkResponse 200 None))
  = ["https://host/v1//sdk-providers"].
Proof. repeat split. Qed.

(** C5: for every method call, a client made with the base URL
    [https://host/v1/] and one made with [https://host/v1] fetch the same
    URL, whatever the keys and whatever the network answers; each makes
    one [fetch] call. *)
Theorem base_url_trailing_slash_same_urls k1 k2 c net1 net2 :
  let a := new (mkSDKConfig "https://host/v1/" k1) in
  let b := new (mkSDKConfig "https://host/v1" k2) in
  urls_fetched (invoke a c) net1 = urls_fetched (invoke b c) net2 /\
  exists endpoint,
    urls_fetched (invoke a c) net1 = ["https://host/v1" +:+ endpoint].
Proof.
  intros a b.
  destruct (invoke_request c) as (endpoint & options & _ & Hc).
  unfold urls_fetched. rewrite !Hc, !request_trace.
  split; [reflexivity | exists endpoint; reflexivity].
Qed.


(** *** Query strings *)

Lemma set_if_string_entry name x sp :
  set_if_string name x sp = apply_entry sp (name, string_entry x).
Proof. destruct x as [| |[|c s]]; reflexivity. Qed.

Lemma set_if_number_entry name x sp :
  set_if_number name x sp = apply_entry sp (name, number_entry_truthy x).
Proof. destruct x as [| |[|neg|neg|neg s n]]; reflexivity. Qed.

Lemma set_fresh name v (sp : URLSearchParams) :
  name ∉ List.map fst sp ->
  URLSearchParams_set name v sp = (sp ++ [(name, v)])%list.
Proof.
  induction sp as [|[k w] sp IH]; intros Hfresh; [reflexivity|].
  cbn [URLSearchParams_set]. cbn in Hfresh.
  apply not_elem_of_cons in Hfresh as [Hne Hfresh].
  destruct (String.eqb_spec k name) as [->|_]; [congruence|].
  rewrite (IH Hfresh). reflexivity.
Qed.

Lemma apply_entries_fresh (entries : list (string * option string)) (sp : URLSearchParams) :
  NoDup (List.map fst entries) ->
  (forall name, name ∈ List.map fst entries -> name ∉ List.map fst sp) ->
  fold_left apply_entry entries sp = (sp ++ omap entry_tuple entries)%list.
Proof.
  revert sp. induction entries as [|[name o] entries IH]; intros sp Hnd Hfresh.
  - cbn. rewrite app_nil_r. reflexivity.
  - cbn in Hnd. apply NoDup_cons in Hnd as [Hname Hnd].
    cbn [fold_left]. rewrite IH; [|exact Hnd|].
    + destruct o as [v|]; unfold apply_entry, entry_tuple; cbn.
      * rewrite set_fresh by (apply Hfresh; cbn; left).
        rewrite <- app_assoc. reflexivity.
      * reflexivity.
    + intros name' Hin.
      assert (name' ∉ List.map fst sp) as Hsp by (apply Hfresh; cbn; right; exact Hin).
      destruct o as [v|]; unfold apply_entry; cbn; [|exact Hsp].
      rewrite set_fresh by (apply Hfresh; cbn; left).
      rewrite map_app. cbn. rewrite elem_of_app, list_elem_of_singleton.
      intros [?| ->]; [contradiction|]. apply Hname. exact Hin.
Qed.

Lemma serialize_entries (entries : list (string * option string)) :
  Forall (fun e => urlencoded (fst e) = fst e) entries ->
  List.map serialize_tuple (omap entry_tuple entries) = omap pair_text entries.
Proof.
  induction 1 as [|[name [v|]] entries Hname _ IH]; cbn.
  - reflexivity.
  - rewrite IH. unfold serialize_tuple, pair_text. cbn in *. rewrite Hname. reflexivity.
  - exact IH.
Qed.


Lemma with_query_urls this path sp net :
  urls_fetched (request this (with_query path sp) no_options) net
  = [baseUrl this +:+ path +:+
     (if String.eqb (URLSearchParams_toString sp) "" then ""
      else "?" +:+ URLSearchParams_toString sp)].
Proof.
  unfold urls_fetched. rewrite request_trace. unfold with_query.
  destruct (URLSearchParams_toString sp); reflexivity.
Qed.

Lemma inventory_list_searchParams_entries params :
  inventory_list_searchParams params
  = omap entry_tuple (inventory_list_entries number_entry_truthy params).
Proof.
  unfold inventory_list_searchParams.
  rewrite !set_if_string_entry, !set_if_number_entry.
  change (fold_left apply_entry (inventory_list_entries number_entry_truthy params) []
          = omap entry_tuple (inventory_list_entries number_entry_truthy params)).
  rewrite apply_entries_fresh; [reflexivity| |].
  - cbn. compute_done.
  - intros name _. cbn. apply not_elem_of_nil.
Qed.

(** C3 (as the code has it): the query string of [inventory.list] takes the
    nine optional parameters in their declared order; a parameter that is
    absent, [null], zero, [NaN] or the empty string is left out, and every
    other one goes in as [name=value] with the string form of the value
    form-urlencoded, the entries joined by [&]; the query follows the path
    after a [?] unless it is empty.  The filters
    [{min_vcpu: 4, max_price_usd_hr: 1.0, limit: 20}] give exactly
    [min_vcpu=4&max_price_usd_hr=1&limit=20]. *)
Theorem inventory_list_query this params net :
  let query := URLSearchParams_toString (inventory_list_searchParams params) in
  query = query_of (inventory_list_entries number_entry_truthy params) /\
  urls_fetched (inventory_list this params) net
  = [baseUrl this +:+ "/sdk-inventory" +:+
     (if String.eqb query "" then "" else "?" +:+ query)] /\
  URLSearchParams_toString (inventory_list_searchParams (Some example_filters))
  = "min_vcpu=4&max_price_usd_hr=1&limit=20".
Proof.
  intros query. split; [|split].
  - subst query. rewrite inventory_list_searchParams_entries.
    unfold URLSearchParams_toString, query_of. f_equal.
    apply serialize_entries. repeat constructor.
  - apply with_query_urls.
  - reflexivity.
Qed.

(** C3, as stated, fails: [NaN] is none of absent, [null], zero and the
    empty string, and by the stated rule [min_vcpu: NaN] would give the
    query [min_vcpu=NaN]; the client leaves the parameter out and fetches
    the bare path. *)
Lemma inventory_list_omits_NaN :
  let this := new (mkSDKConfig "https://host/v1" "k") in
  query_of (inventory_list_entries number_entry (Some NaN_filters)) = "min_vcpu=NaN" /\
  URLSearchParams_toString (inventory_list_searchParams (Some NaN_filters)) = "" /\
  urls_fetched (inventory_list this (Some NaN_filters))
               (fun _ _ => Resolved (mkResponse 200 None))
  = ["https://host/v1/sdk-inventory"].
Proof. split; [|split]; reflexivity. Qed.

Lemma getByProvider_searchParams_entries providerName params :
  inventory_getByProvider_searchParams providerName params
  = ("provider", providerName) :: omap entry_tuple (by_provider_entries params).
Proof.
  unfold inventory_getByProvider_searchParams.
  rewrite !set_if_string_entry, !set_if_number_entry.
  change (fold_left apply_entry (by_provider_entries params) [("provider", providerName)]
          = ([("provider", providerName)] ++ omap entry_tuple (by_provider_entries params))%list).
  apply apply_entries_fresh.
  - cbn. compute_done.
  - intros name Hin. cbn in *. rewrite list_elem_of_singleton. intros ->.
    revert Hin. compute_done.
Qed.

Lemma getByProvider_query providerName params :
  URLSearchParams_toString (inventory_getByProvider_searchParams providerName params)
  = join "&" (("provider=" +:+ urlencoded providerName)
              :: omap pair_text (by_provider_entries params)).
Proof.
  rewrite getByProvider_searchParams_entries.
  unfold URLSearchParams_toString. cbn [List.map]. f_equal. f_equal.
  apply serialize_entries. repeat constructor.
Qed.

Lemma getByProvider_urls this providerName params net :
  urls_fetched (inventory_getByProvider this providerName params) net
  = [baseUrl this +:+ "/sdk-inventory/provider/" +:+ providerName +:+ "?" +:+
     URLSearchParams_toString (inventory_getByProvider_searchParams providerName params)] /\
  URLSearchParams_toString (inventory_getByProvider_searchParams providerName params) <> "".
Proof.
  unfold inventory_getByProvider. rewrite with_query_urls.
  rewrite getByProvider_query.
  rewrite (append_assoc "/sdk-inventory/provider/").
  destruct (omap pair_text (by_provider_entries params)); split; (reflexivity || discriminate).
Qed.

(** C7: for every provider name, the empty one included,
    [inventory.getByProvider] sets the parameter [provider] to the name
    whatever the other parameters are: the parameter list answers the name
    for [provider], the query string begins with [provider=] and the
    (form-urlencoded) name, and the URL fetched always carries that query
    after the path. *)
Theorem getByProvider_always_sets_provider this providerName params net :
  let searchParams := inventory_getByProvider_searchParams providerName params in
  let query := join "&" (("provider=" +:+ urlencoded providerName)
                         :: omap pair_text (by_provider_entries params)) in
  URLSearchParams_get "provider" searchParams = Some providerName /\
  URLSearchParams_toString searchParams = query /\
  urls_fetched (inventory_getByProvider this providerName params) net
  = [baseUrl this +:+ "/sdk-inventory/provider/" +:+ providerName +:+ "?" +:+ query] /\
  urls_fetched (inventory_getByProvider this "" None) net
  = [baseUrl this +:+ "/sdk-inventory/provider/?provider="].
Proof.
  intros searchParams query. subst searchParams query.
  split; [|split; [|split]].
  - rewrite getByProvider_searchParams_entries. reflexivity.
  - apply getByProvider_query.
  - unfold inventory_getByProvider. rewrite with_query_urls.
    rewrite getByProvider_query.
    rewrite (append_assoc "/sdk-inventory/provider/").
    destruct (omap pair_text (by_provider_entries params)); reflexivity.
  - unfold inventory_getByProvider. rewrite with_query_urls. reflexivity.
Qed.


(** *** Identifiers in the path *)

Lemma string_forall_append f (a b : string) :
  string_forall f (a +:+ b) = string_forall f a && string_forall f b.
Proof.
  induction a as [|c a IH]; [reflexivity|].
  rewrite append_cons. cbn [string_forall]. rewrite IH, andb_assoc. reflexivity.
Qed.

Lemma urlencoded_byte_safe c : string_forall is_query_safe (urlencoded_byte c) = true.
Proof. destruct c as [[] [] [] [] [] [] [] []]; vm_compute; reflexivity. Qed.

Lemma urlencoded_safe s : string_forall is_query_safe (urlencoded s) = true.
Proof.
  induction s as [|c s IH]; [reflexivity|].
  cbn [urlencoded]. rewrite string_forall_append, urlencoded_byte_safe, IH. reflexivity.
Qed.

(** C10: [inventory.get], [deployments.get] and the path of
    [inventory.getByProvider] put the identifier into the URL as it is,
    unencoded and unchecked: the empty identifier gives the path
    [/sdk-inventory/], and an identifier with [/] or [?] in it reaches the
    URL with them.  A value in the query string is form-urlencoded: only
    letters, digits and [* - . _ + %] remain of it, so neither [/] nor [?]. *)
Theorem identifiers_interpolated_verbatim this id params net :
  urls_fetched (inventory_get this id) net
  = [baseUrl this +:+ "/sdk-inventory/" +:+ id] /\
  urls_fetched (deployments_get this id) net
  = [baseUrl this +:+ "/sdk-deployments/" +:+ id] /\
  urls_fetched (inventory_getByProvider this id params) net
  = [baseUrl this +:+ "/sdk-inventory/provider/" +:+ id +:+ "?" +:+
     URLSearchParams_toString (inventory_getByProvider_searchParams id params)] /\
  urls_fetched (inventory_get this "") net = [baseUrl this +:+ "/sdk-inventory/"] /\
  urls_fetched (inventory_get this "a/b?c") net
  = [baseUrl this +:+ "/sdk-inventory/a/b?c"] /\
  urls_fetched (inventory_getByProvider this "a/b?c" None) net
  = [baseUrl this +:+ "/sdk-inventory/provider/a/b?c?provider=a%2Fb%3Fc"] /\
  string_forall is_query_safe (urlencoded id) = true /\
  is_query_safe "/" = false /\
  is_query_safe "?" = false.
Proof.
  unfold urls_fetched, inventory_get, deployments_get.
  rewrite !request_trace.
  repeat match goal with |- _ /\ _ => split end; try reflexivity.
  - fold (urls_fetched (inventory_getByProvider this id params) net).
    destruct (getByProvider_urls this id params net) as [-> _].
    reflexivity.
  - fold (urls_fetched (inventory_getByProvider this "a/b?c" None) net).
    unfold inventory_getByProvider. rewrite with_query_urls. reflexivity.
  - apply urlencoded_safe.
Qed.


(** *** The body of [deployments.create] *)

Lemma SerializeJSONProperty_undefined v :
  SerializeJSONProperty v = None <-> is_undefined v = true.
Proof. destruct v; split; intros H; first [reflexivity | discriminate H]. Qed.

Lemma omap_cons {A B} (f : A -> option B) (x : A) (l : list A) :
  omap f (x :: l) = match f x with Some y => y :: omap f l | None => omap f l end.
Proof. reflexivity. Qed.

Lemma object_members (params : list (string * value)) :
  omap (fun p => member (fst p) <$> SerializeJSONProperty (snd p)) params
  = zip_with member (supplied_keys params) (value_texts params)
  /\ length (value_texts params) = length (supplied_keys params).
Proof.
  unfold supplied_keys, value_texts.
  induction params as [|[k v] params [IH1 IH2]]; [split; reflexivity|].
  rewrite !omap_cons. cbn [List.filter List.map fst snd].
  destruct (SerializeJSONProperty v) as [t|] eqn:E.
  - assert (is_undefined v = false) as ->.
    { destruct (is_undefined v) eqn:U; [|reflexivity].
      apply SerializeJSONProperty_undefined in U. congruence. }
    cbn [negb fmap option_fmap option_map List.map fst zip_with length].
    rewrite IH1, IH2. split; reflexivity.
  - apply SerializeJSONProperty_undefined in E. rewrite E.
    cbn [negb fmap option_fmap option_map].
    split; [exact IH1 | exact IH2].
Qed.

(** C8: [deployments.create] makes one [fetch] call, a POST to
    [/sdk-deployments], whose body is the JSON text of an object with one
    member for each key the caller supplied (each property whose value is
    not [undefined]), in the caller's order, and no other member; when the
    server answers with a status in 200..299 and a JSON body, the call
    resolves with that decoded body as it is.  For
    [{cloud_inventory_id: 'abc', rental_duration_hours: 24}] the body has
    exactly those two keys. *)
Theorem deployments_create_sends_supplied_keys this params net :
  let texts := value_texts params in
  let sent :=
    {| method := Some "POST";
       body := Some ("{" +:+ join "," (zip_with member (supplied_keys params) texts) +:+ "}");
       headers := Some (<["x-api-key" := apiKey this]>
                          (<["Content-Type" := "application/json"]> ∅)) |} in
  length texts = length (supplied_keys params) /\
  snd (run (deployments_create this params) net)
  = [(baseUrl this +:+ "/sdk-deployments", sent)] /\
  (forall r v,
     net (baseUrl this +:+ "/sdk-deployments") sent = Resolved r ->
     ok r = true -> json r = Some v ->
     fst (run (deployments_create this params) net) = Resolved v) /\
  supplied_keys example_deployment = ["cloud_inventory_id"; "rental_duration_hours"] /\
  JSON_stringify (Obj example_deployment)
  = Some ("{" +:+ quoted "cloud_inventory_id" +:+ ":" +:+ quoted "abc" +:+ ","
          +:+ quoted "rental_duration_hours" +:+ ":24}").
Proof.
  intros texts sent.
  destruct (object_members params) as [Hmembers Hlen].
  assert (Hinit : request_init this
            {| method := Some "POST"; body := JSON_stringify (Obj params); headers := None |}
          = sent).
  { unfold request_init, merged_headers, sent, texts. cbn [method body headers default].
    rewrite (left_id_L ∅ (∪)). f_equal.
    change (JSON_stringify (Obj params))
      with (Some ("{" +:+
                  join "," (omap (fun p => member (fst p) <$> SerializeJSONProperty (snd p)) params)
                  +:+ "}")).
    rewrite Hmembers. reflexivity. }
  split; [exact Hlen|]. split; [|split; [|split; reflexivity]].
  - unfold deployments_create. rewrite request_trace, Hinit. reflexivity.
  - intros r v Hnet Hok Hjson. unfold deployments_create.
    rewrite <- Hinit in Hnet.
    rewrite (request_resolved _ _ _ _ _ Hnet). cbn zeta.
    rewrite Hok, Hjson. reflexivity.
Qed.

Lemma deployments_create_sends_supplied_keys_witness :
  let this := new (mkSDKConfig "https://host/v1" "k") in
  let net : Network := fun _ _ => Resolved (mkResponse 201 (Some example_reply)) in
  fst (run (deployments_create this example_deployment) net) = Resolved example_reply /\
  List.map (fun call => (fst call, method (snd call), body (snd call)))
           (snd (run (deployments_create this example_deployment) net))
  = [("https://host/v1/sdk-deployments", Some "POST",
      Some ("{" +:+ quoted "cloud_inventory_id" +:+ ":" +:+ quoted "abc" +:+ ","
            +:+ quoted "rental_duration_hours" +:+ ":24}"))].
Proof.
  intros this net.
  destruct (deployments_create_sends_supplied_keys this example_deployment net)
    as (_ & Htrace & Hreply & _).
  split.
  - apply (Hreply (mkResponse 201 (Some example_reply)) example_reply); reflexivity.
  - rewrite Htrace. reflexivity.
Defined.

(** ** Further properties of the client *)

(** *** What every method does with the answer *)

Lemma invoke_resolved this c net url init r :
  snd (run (invoke this c) net) = [(url, init)] ->
  net url init = Resolved r ->
  fst (run (invoke this c) net)
  = let parsed := default parse_failure (json r) in
    if ok r then Resolved parsed
    else Rejected (new_Error
           (match parsed with
            | Obj props =>
                match get_property "error" props with
                | Some (Str m) => m
                | _ => "HTTP " +:+ N_toString (status r)
                end
            | _ => "HTTP " +:+ N_toString (status r)
            end)).
Proof.
  destruct (invoke_request c) as (endpoint & options & _ & Hc).
  rewrite Hc. intros Htrace Hnet.
  rewrite request_trace in Htrace. injection Htrace as <- <-.
  apply request_resolved. exact Hnet.
Qed.

(** X1: whichever method is called, when the server answers with a status
    in 200..299 and a JSON body, the call resolves with the decoded body as
    it is (an [error] member in it is not looked at), after one [fetch]
    call. *)
Theorem success_returns_decoded_body this c net url init r v :
  snd (run (invoke this c) net) = [(url, init)] ->
  net url init = Resolved r ->
  ok r = true ->
  json r = Some v ->
  run (invoke this c) net = (Resolved v, [(url, init)]).
Proof.
  intros Htrace Hnet Hok Hjson.
  rewrite (surjective_pairing (run _ _)), Htrace.
  rewrite (invoke_resolved _ _ _ _ _ _ Htrace Hnet). cbn zeta.
  rewrite Hok, Hjson. reflexivity.
Qed.

Lemma success_returns_decoded_body_witness :
  let this := new (mkSDKConfig "https://host/v1" "k") in
  let v := Obj [("error", Str "none"); ("data", Arr [])] in
  let net : Network := fun _ _ => Resolved (mkResponse 200 (Some v)) in
  run (invoke this (DeploymentsGet "d-1")) net
  = (Resolved v, [("https://host/v1/sdk-deployments/d-1", request_init this no_options)]).
Proof.
  intros this v net.
  apply (success_returns_decoded_body this (DeploymentsGet "d-1") net
           "https://host/v1/sdk-deployments/d-1" (request_init this no_options)
           (mkResponse 200 (Some v)) v); reflexivity.
Defined.

(** X2: once [fetch] has answered, a call resolves exactly when the status
    of the response lies in 200..299, whatever the body holds and whether
    or not it is JSON. *)
Theorem resolves_exactly_when_ok this c net url init r :
  snd (run (invoke this c) net) = [(url, init)] ->
  net url init = Resolved r ->
  is_resolved (fst (run (invoke this c) net)) = ok r.
Proof.
  intros Htrace Hnet.
  rewrite (invoke_resolved _ _ _ _ _ _ Htrace Hnet). cbn zeta.
  destruct (ok r); reflexivity.
Qed.

Lemma resolves_exactly_when_ok_witness :
  let this := new (mkSDKConfig "https://host/v1" "k") in
  is_resolved (fst (run (invoke this ProvidersList)
                        (fun _ _ => Resolved (mkResponse 204 None)))) = true /\
  is_resolved (fst (run (invoke this ProvidersList)
                        (fun _ _ => Resolved (mkResponse 304 (Some (Obj [])))))) = false.
Proof.
  intros this. split.
  - apply (resolves_exactly_when_ok this ProvidersList
             (fun _ _ => Resolved (mkResponse 204 None))
             "https://host/v1/sdk-providers" (request_init this no_options)
             (mkResponse 204 None)); reflexivity.
  - apply (resolves_exactly_when_ok this ProvidersList
             (fun _ _ => Resolved (mkResponse 304 (Some (Obj []))))
             "https://host/v1/sdk-providers" (request_init this no_options)
             (mkResponse 304 (Some (Obj [])))); reflexivity.
Defined.

(** X3: when the status is outside 200..299 and the body is not JSON, the
    error thrown carries the parse-failure text and not the status: the
    status code is not in the message. *)
Theorem undecodable_error_body_hides_status this c net url init r :
  snd (run (invoke this c) net) = [(url, init)] ->
  net url init = Resolved r ->
  ok r = false ->
  json r = None ->
  fst (run (invoke this c) net)
  = Rejected (new_Error "Failed to parse response body as JSON").
Proof.
  intros Htrace Hnet Hok Hjson.
  rewrite (invoke_resolved _ _ _ _ _ _ Htrace Hnet). cbn zeta.
  rewrite Hok, Hjson. reflexivity.
Qed.

Lemma undecodable_error_body_hides_status_witness :
  let this := new (mkSDKConfig "https://host/v1" "k") in
  fst (run (invoke this (InventoryGet "inv-1"))
           (fun _ _ => Resolved (mkResponse 502 None)))
  = Rejected (new_Error "Failed to parse response body as JSON").
Proof.
  intros this.
  apply (undecodable_error_body_hides_status this (InventoryGet "inv-1")
           (fun _ _ => Resolved (mkResponse 502 None))
           "https://host/v1/sdk-inventory/inv-1" (request_init this no_options)
           (mkResponse 502 None)); reflexivity.
Defined.

(** *** Key, method and body of the call *)

(** X12: the API key reaches the request in the header only: two clients
    with the same base URL and different keys make, for the same method
    call, [fetch] calls with the same URL, method and body. *)
Theorem api_key_only_in_headers b k1 k2 c net1 net2 :
  List.map without_headers (snd (run (invoke (new (mkSDKConfig b k1)) c) net1))
  = List.map without_headers (snd (run (invoke (new (mkSDKConfig b k2)) c) net2)).
Proof.
  destruct (invoke_request c) as (endpoint & options & _ & Hc).
  rewrite !Hc, !request_trace. reflexivity.
Qed.

(** X13: [deployments.create] is the only method that sets a method and a
    body: it sends a POST with a body; every other method passes neither,
    so [fetch] makes a GET without a body. *)
Theorem only_create_sends_a_body this c net :
  exists url init,
    snd (run (invoke this c) net) = [(url, init)] /\
    match c with
    | DeploymentsCreate _ => method init = Some "POST" /\ is_Some (body init)
    | _ => method init = None /\ body init = None
    end.
Proof.
  destruct c; cbn [invoke];
    unfold providers_list, providers_getRegions, providers_getTemplates,
      inventory_list, inventory_get, inventory_getByProvider,
      deployments_create, deployments_list, deployments_get,
      usage_getLogs, usage_getSummary, usage_getBilling;
    rewrite request_trace; eexists _, _; (split; [reflexivity|]);
    cbn; split; eauto.
Qed.

(** *** The queries of the other methods *)

Lemma entries_query (entries : list (string * option string)) :
  NoDup (List.map fst entries) ->
  Forall (fun e => urlencoded (fst e) = fst e) entries ->
  URLSearchParams_toString (fold_left apply_entry entries URLSearchParams_new)
  = query_of entries.
Proof.
  intros Hnd Hnames.
  rewrite apply_entries_fresh; [|exact Hnd|intros name _; apply not_elem_of_nil].
  unfold URLSearchParams_toString, query_of, URLSearchParams_new. cbn [app]. f_equal.
  apply serialize_entries. exact Hnames.
Qed.

(** X5: [providers.getRegions] and [providers.getTemplates] fetch their
    path alone when the provider id is absent, [null] or empty, and the
    path followed by [?provider_id=] and the form-urlencoded id otherwise;
    the two differ in the path only. *)
Theorem providers_queries this providerId net :
  let suffix := match string_entry providerId with
                | Some id => "?provider_id=" +:+ urlencoded id
                | None => ""
                end in
  urls_fetched (providers_getRegions this providerId) net
  = [baseUrl this +:+ "/sdk-providers/regions" +:+ suffix] /\
  urls_fetched (providers_getTemplates this providerId) net
  = [baseUrl this +:+ "/sdk-providers/templates" +:+ suffix].
Proof.
  intros suffix. subst suffix.
  unfold providers_getRegions, providers_getTemplates.
  rewrite !with_query_urls, !set_if_string_entry.
  destruct (string_entry providerId) as [id|]; split; reflexivity.
Qed.

(** X6: [deployments.list] builds its query from [limit], [offset] and
    [status], in that order: a number that is absent, [null], zero or [NaN]
    and a status that is absent, [null] or empty are left out (so
    [offset: 0] is never sent), and the [?] is there only before a query
    that is not empty. *)
Theorem deployments_list_query this params net :
  urls_fetched (deployments_list this params) net
  = [baseUrl this +:+
     path_and_query "/sdk-deployments" (query_of (deployments_list_entries params))].
Proof.
  unfold deployments_list. rewrite with_query_urls.
  rewrite !set_if_string_entry, !set_if_number_entry.
  set (sp := apply_entry _ _).
  assert (sp = fold_left apply_entry (deployments_list_entries params) URLSearchParams_new)
    as -> by reflexivity.
  rewrite entries_query; [reflexivity| cbn; compute_done | repeat constructor].
Qed.

(** X7: [usage.getLogs] builds its query from [limit], [offset],
    [start_date], [end_date] and [endpoint], in that order, under the same
    rule; dates go in form-urlencoded. *)
Theorem usage_getLogs_query this params net :
  urls_fetched (usage_getLogs this params) net
  = [baseUrl this +:+
     path_and_query "/sdk-usage-tracking/logs" (query_of (usage_logs_entries params))].
Proof.
  unfold usage_getLogs. rewrite with_query_urls.
  rewrite !set_if_string_entry, !set_if_number_entry.
  set (sp := apply_entry _ _).
  assert (sp = fold_left apply_entry (usage_logs_entries params) URLSearchParams_new)
    as -> by reflexivity.
  rewrite entries_query; [reflexivity| cbn; compute_done | repeat constructor].
Qed.

(** X8: [usage.getSummary] and [usage.getBilling] build the same query from
    [start_date] and [end_date] and differ in the path only. *)
Theorem usage_period_queries this params net :
  urls_fetched (usage_getSummary this params) net
  = [baseUrl this +:+
     path_and_query "/sdk-usage-tracking/summary" (query_of (period_entries params))] /\
  urls_fetched (usage_getBilling this params) net
  = [baseUrl this +:+
     path_and_query "/sdk-usage-tracking/billing" (query_of (period_entries params))].
Proof.
  unfold usage_getSummary, usage_getBilling. rewrite !with_query_urls.
  rewrite !set_if_string_entry.
  set (sp := apply_entry _ _).
  assert (sp = fold_left apply_entry (period_entries params) URLSearchParams_new)
    as -> by reflexivity.
  rewrite entries_query; [split; reflexivity| cbn; compute_done | repeat constructor].
Qed.

(** *** When the query is empty, and what a value can put into it *)

Lemma append_nil_r (s : string) : s +:+ "" = s.
Proof.
  induction s as [|c s IH]; [reflexivity|].
  rewrite append_cons, IH. reflexivity.
Qed.

Lemma append_eq_nil (a b : string) : a +:+ b = "" -> a = "" /\ b = "".
Proof. destruct a; [intros H; split; [reflexivity | exact H] | discriminate]. Qed.

Lemma serialize_tuple_not_empty p : serialize_tuple p <> "".
Proof.
  unfold serialize_tuple. intros H.
  apply append_eq_nil in H as [_ H]. discriminate H.
Qed.

Lemma toString_empty (sp : URLSearchParams) :
  URLSearchParams_toString sp = "" <-> sp = [].
Proof.
  split; [|intros ->; reflexivity].
  unfold URLSearchParams_toString.
  destruct sp as [|p [|q sp]]; [reflexivity | |]; cbn [List.map join]; intros H; exfalso.
  - exact (serialize_tuple_not_empty p H).
  - apply append_eq_nil in H as [H _]. exact (serialize_tuple_not_empty p H).
Qed.

Lemma omap_entry_tuple_nil (entries : list (string * option string)) :
  omap entry_tuple entries = [] <-> Forall (fun e => snd e = None) entries.
Proof.
  induction entries as [|[name [v|]] entries IH]; rewrite ?omap_cons; cbn.
  - split; [constructor | reflexivity].
  - split; [discriminate | intros H; inversion H; discriminate].
  - rewrite IH. split; [intros H; constructor; [reflexivity | exact H]
                       | intros H; inversion H; assumption].
Qed.

(** X9: [inventory.list] fetches the bare path [/sdk-inventory], without a
    [?], exactly when each of its nine parameters is absent, [null], zero,
    [NaN] or empty (in particular when [params] is not given). *)
Theorem inventory_list_bare_path_iff this params net :
  urls_fetched (inventory_list this params) net = [baseUrl this +:+ "/sdk-inventory"]
  <-> Forall (fun e => snd e = None) (inventory_list_entries number_entry_truthy params).
Proof.
  unfold inventory_list. rewrite with_query_urls.
  rewrite <- omap_entry_tuple_nil, <- inventory_list_searchParams_entries, <- toString_empty.
  destruct (URLSearchParams_toString (inventory_list_searchParams params)) as [|c q].
  - cbn [String.eqb]. rewrite append_nil_r. split; reflexivity.
  - cbn [String.eqb]. split; [|discriminate].
    intros H. exfalso. injection H as H.
    rewrite <- (append_nil_r "/sdk-inventory") in H at 2.
    apply (inj (String.append _)) in H. apply (inj (String.append _)) in H.
    discriminate H.
Qed.

Lemma count_char_append c (a b : string) :
  count_char c (a +:+ b) = count_char c a + count_char c b.
Proof.
  induction a as [|x a IH]; [reflexivity|].
  rewrite append_cons. cbn [count_char]. rewrite IH. lia.
Qed.

Lemma count_char_forall f c (s : string) :
  string_forall f s = true -> f c = false -> count_char c s = 0.
Proof.
  intros Hs Hc. induction s as [|a s IH]; [reflexivity|].
  cbn in Hs. apply andb_true_iff in Hs as [Ha Hs].
  cbn [count_char]. rewrite (IH Hs).
  destruct (Ascii.eqb_spec a c) as [->|_]; [congruence | reflexivity].
Qed.

Lemma count_serialize_tuple p :
  count_char "=" (serialize_tuple p) = 1 /\ count_char "&" (serialize_tuple p) = 0.
Proof.
  unfold serialize_tuple. rewrite !count_char_append.
  rewrite !(count_char_forall is_query_safe _ (urlencoded _))
    by (apply urlencoded_safe || reflexivity).
  split; reflexivity.
Qed.

Lemma count_toString (sp : URLSearchParams) :
  count_char "=" (URLSearchParams_toString sp) = length sp /\
  count_char "&" (URLSearchParams_toString sp) = pred (length sp).
Proof.
  unfold URLSearchParams_toString.
  induction sp as [|p sp [IHe IHa]]; [split; reflexivity|].
  destruct (count_serialize_tuple p) as [He Ha].
  destruct sp as [|q sp].
  - cbn [List.map join length pred]. split; assumption.
  - change (join "&" (List.map serialize_tuple (p :: q :: sp)))
      with (serialize_tuple p +:+ "&" +:+ join "&" (List.map serialize_tuple (q :: sp))).
    rewrite !count_char_append, He, Ha, IHe, IHa. cbn. split; lia.
Qed.

Lemma omap_length {A B} (f : A -> option B) (l : list A) :
  length (omap f l) <= length l.
Proof.
  induction l as [|x l IH]; [reflexivity|].
  rewrite omap_cons. destruct (f x); cbn [length]; lia.
Qed.

Lemma count_question_toString (sp : URLSearchParams) :
  count_char "?" (URLSearchParams_toString sp) = 0.
Proof.
  assert (Htuple : forall p, count_char "?" (serialize_tuple p) = 0).
  { intros p. unfold serialize_tuple. rewrite !count_char_append.
    rewrite !(count_char_forall is_query_safe _ (urlencoded _))
      by (apply urlencoded_safe || reflexivity). reflexivity. }
  unfold URLSearchParams_toString.
  induction sp as [|p sp IH]; [reflexivity|].
  destruct sp as [|q sp].
  - cbn [List.map join]. apply Htuple.
  - change (join "&" (List.map serialize_tuple (p :: q :: sp)))
      with (serialize_tuple p +:+ "&" +:+ join "&" (List.map serialize_tuple (q :: sp))).
    rewrite !count_char_append, IH, Htuple. reflexivity.
Qed.

(** X10: no argument can add a parameter to the request of
    [inventory.list].  Whatever strings and numbers the caller passes, the
    endpoint fetched after the base URL has one [=] for each parameter the
    method set (nine at most), an [&] between two of them only, and a [?]
    exactly when a parameter is set. *)
Theorem inventory_list_values_cannot_add_parameters this params net :
  let set_count := length (inventory_list_searchParams params) in
  exists endpoint,
    urls_fetched (inventory_list this params) net = [baseUrl this +:+ endpoint] /\
    count_char "=" endpoint = set_count /\
    count_char "&" endpoint = pred set_count /\
    count_char "?" endpoint = (if Nat.eqb set_count 0 then 0 else 1) /\
    set_count <= 9.
Proof.
  intros set_count. subst set_count.
  exists (with_query "/sdk-inventory" (inventory_list_searchParams params)).
  split; [unfold urls_fetched, inventory_list; rewrite request_trace; reflexivity|].
  destruct (count_toString (inventory_list_searchParams params)) as [He Ha].
  pose proof (count_question_toString (inventory_list_searchParams params)) as Hq.
  assert (Hlen : length (inventory_list_searchParams params) <= 9).
  { rewrite inventory_list_searchParams_entries.
    pose proof (omap_length entry_tuple (inventory_list_entries number_entry_truthy params)) as H.
    cbn [length inventory_list_entries] in H. exact H. }
  unfold with_query.
  destruct (URLSearchParams_toString (inventory_list_searchParams params)) as [|a q] eqn:E.
  - apply toString_empty in E. rewrite E.
    split; [reflexivity|]. split; [reflexivity|]. split; [reflexivity|]. cbn; lia.
  - assert (inventory_list_searchParams params <> []) as Hne.
    { intros H. apply toString_empty in H. congruence. }
    cbn [ToBoolean_string]. rewrite !count_char_append, He, Ha, Hq.
    destruct (inventory_list_searchParams params) as [|p sp]; [congruence|].
    cbn in *. split; [lia|]. split; [lia|]. split; lia.
Qed.

(** *** Members left undefined *)

(** X14: a member of the argument of [deployments.create] whose value is
    [undefined] is the same as a member left out: the call made and its
    result are the same. *)
Theorem undefined_member_is_left_out this before key after net :
  run (deployments_create this (before ++ (key, Undefined) :: after)%list) net
  = run (deployments_create this (before ++ after)%list) net.
Proof.
  unfold deployments_create.
  assert (JSON_stringify (Obj (before ++ (key, Undefined) :: after)%list)
          = JSON_stringify (Obj (before ++ after)%list)) as ->; [|reflexivity].
  change (Some ("{" +:+
            join "," (omap (fun p => member (fst p) <$> SerializeJSONProperty (snd p))
                           (before ++ (key, Undefined) :: after)%list) +:+ "}")
          = Some ("{" +:+
            join "," (omap (fun p => member (fst p) <$> SerializeJSONProperty (snd p))
                           (before ++ after)%list) +:+ "}")).
  rewrite !omap_app, omap_cons. reflexivity.
Qed.

(** *** The base URL and the endpoints *)

(** X15: every method fetches the base URL of the client followed by an
    endpoint that begins with a separator, whatever its arguments are. *)
Theorem every_endpoint_begins_with_separator this c net :
  exists endpoint,
    urls_fetched (invoke this c) net = [baseUrl this +:+ endpoint] /\
    startsWith "/" endpoint = true.
Proof.
  unfold urls_fetched.
  destruct c; cbn [invoke];
    unfold providers_list, providers_getRegions, providers_getTemplates,
      inventory_list, inventory_get, inventory_getByProvider,
      deployments_create, deployments_list, deployments_get,
      usage_getLogs, usage_getSummary, usage_getBilling;
    rewrite request_trace; eexists; (split; [reflexivity|]); reflexivity.
Qed.

(** X16: for every base URL that does not end with a separator, a client
    made with that URL and one made with the URL followed by one separator
    are the same client: every method call makes the same [fetch] call and
    has the same result. *)
Theorem one_trailing_separator_is_immaterial b k c net :
  endsWith "/" b = false ->
  new (mkSDKConfig (b +:+ "/") k) = new (mkSDKConfig b k) /\
  run (invoke (new (mkSDKConfig (b +:+ "/") k)) c) net
  = run (invoke (new (mkSDKConfig b k)) c) net.
Proof.
  intros Hb.
  assert (new (mkSDKConfig (b +:+ "/") k) = new (mkSDKConfig b k)) as Hnew.
  { unfold new; cbn [config_baseUrl config_apiKey].
    rewrite replace_trailing_slash_append, (replace_trailing_slash_id _ Hb). reflexivity. }
  split; [exact Hnew | rewrite Hnew; reflexivity].
Qed.

Lemma one_trailing_separator_is_immaterial_witness :
  let net : Network := fun _ _ => Resolved (mkResponse 200 (Some (Obj [("data", Arr [])]))) in
  new (mkSDKConfig "http://localhost:54321/functions/v1/" "k")
  = new (mkSDKConfig "http://localhost:54321/functions/v1" "k") /\
  run (invoke (new (mkSDKConfig "http://localhost:54321/functions/v1/" "k")) ProvidersList) net
  = run (invoke (new (mkSDKConfig "http://localhost:54321/functions/v1" "k")) ProvidersList) net.
Proof.
  intros net.
  apply (one_trailing_separator_is_immaterial
           "http://localhost:54321/functions/v1" "k" ProvidersList net).
  reflexivity.
Defined.

End Properties.
